(** * Network-Reachability: the Windows registration shim of the flux_net plugin

    Sources embedded here:
    - [windows/flux_net_plugin.h]: class [flux_net::FluxNetPlugin];
    - [windows/flux_net_plugin_c_api.cpp]: the registration entry point
      [FluxNetPluginCApiRegisterWithRegistrar].

    Both functions talk to the Flutter host framework and do nothing else,
    so a program is embedded as a finite tree of host calls ([Prog]) and is
    given meaning by an arbitrary host ([Handler]): running a program yields
    its result, the final host state and the log of the calls it made, each
    with the value the host answered. *)

From Stdlib Require Import NArith List String Lia.
Import ListNotations.

Set Implicit Arguments.

(** ** Host framework types *)

(** Pointers are addresses; the null pointer is address 0. *)
Definition address := N.
Definition nullptr : address := 0%N.

(** [FlutterDesktopPluginRegistrarRef]: the opaque registrar handle of the
    host's C ABI. *)
Record FlutterDesktopPluginRegistrarRef : Type :=
  RegistrarRef { ref_addr : address }.

(** [flutter::PluginRegistrarManager*]: what [GetInstance()] returns. *)
Record PluginRegistrarManager_ptr : Type :=
  ManagerPtr { manager_addr : address }.

(** [flutter::PluginRegistrarWindows*]: the typed registrar. *)
Record PluginRegistrarWindows_ptr : Type :=
  WindowsRegistrarPtr { registrar_addr : address }.

(** [std::unique_ptr<flutter::MethodResult<flutter::EncodableValue>>]: the
    result sink handed to the handler. *)
Record MethodResult_ptr : Type :=
  ResultPtr { result_addr : address }.

(** ** The plugin class (flux_net_plugin.h, lines 11-27)

    [class FluxNetPlugin : public flutter::Plugin] declares a static
    function, a constructor, a virtual destructor, two deleted copy
    operations and [HandleMethodCall]; it declares no data member, so the
    record of its members has no field.  The base class [flutter::Plugin] is
    the host's plugin interface and is owned by the host framework. *)
Record FluxNetPlugin : Type := Build_FluxNetPlugin_obj { }.

Section FluxNet.

(** [flutter::EncodableValue], the host's variant of method-channel values,
    is not part of this repository. *)
Context {EncodableValue : Type}.

(** [flutter::MethodCall<flutter::EncodableValue>]: a method name and its
    argument payload. *)
Record MethodCall : Type :=
  Build_MethodCall { method_name : string; arguments : EncodableValue }.

(** ** Host calls

    The calls into the host framework that the repository makes, indexed by
    the type of the answer. *)
Inductive HostCall : Type -> Type :=
  (* flutter::PluginRegistrarManager::GetInstance() *)
| GetInstance : HostCall PluginRegistrarManager_ptr
  (* manager->GetRegistrar<flutter::PluginRegistrarWindows>(registrar) *)
| GetRegistrar (manager : PluginRegistrarManager_ptr)
               (registrar : FlutterDesktopPluginRegistrarRef)
    : HostCall PluginRegistrarWindows_ptr
  (* binding the plugin's method channel on a typed registrar *)
| BindMethodChannel (registrar : PluginRegistrarWindows_ptr)
                    (plugin : FluxNetPlugin)
    : HostCall unit
  (* result->Success(value) *)
| MethodResult_Success (result : MethodResult_ptr) (value : EncodableValue)
    : HostCall unit
  (* result->Error(code, message, details) *)
| MethodResult_Error (result : MethodResult_ptr) (code message : string)
                     (details : EncodableValue)
    : HostCall unit
  (* result->NotImplemented() *)
| MethodResult_NotImplemented (result : MethodResult_ptr)
    : HostCall unit.

(** ** Programs over host calls *)

Inductive Prog (R : Type) : Type :=
| Ret (r : R)
| Vis (X : Type) (c : HostCall X) (k : X -> Prog R).

Arguments Ret {R} r.
Arguments Vis {R X} c k.

Definition call {X : Type} (c : HostCall X) : Prog X := Vis c (fun x => Ret x).

Fixpoint bind {A B : Type} (p : Prog A) (f : A -> Prog B) : Prog B :=
  match p with
  | Ret a => f a
  | Vis c k => Vis c (fun x => bind (k x) f)
  end.

Notation "x <- p ;; q" := (bind p (fun x => q))
  (at level 61, p at next level, right associativity).
Notation "p ;;; q" := (bind p (fun _ => q))
  (at level 61, right associativity).

(** A host answers every call and updates its own state. *)
Definition Handler (S : Type) : Type :=
  forall X : Type, HostCall X -> S -> X * S.

(** One line of the call log: the call and the host's answer. *)
Record Entry : Type :=
  Logged { entry_type : Type; entry_call : HostCall entry_type;
           entry_answer : entry_type }.

Arguments Logged {entry_type} entry_call entry_answer.

Record Outcome (S R : Type) : Type :=
  Build_Outcome { returned : R; final : S; log : list Entry }.

Fixpoint run {S R : Type} (h : Handler S) (p : Prog R) (s : S) : Outcome S R :=
  match p with
  | Ret r => Build_Outcome r s []
  | Vis c k =>
      let '(x, s1) := h _ c s in
      let o := run h (k x) s1 in
      Build_Outcome (returned o) (final o) (Logged c x :: log o)
  end.

(** ** The registration entry point (flux_net_plugin_c_api.cpp, lines 7-12)

<<
void FluxNetPluginCApiRegisterWithRegistrar(
    FlutterDesktopPluginRegistrarRef registrar) {
  flux_net::FluxNetPlugin::RegisterWithRegistrar(
      flutter::PluginRegistrarManager::GetInstance()
          ->GetRegistrar<flutter::PluginRegistrarWindows>(registrar));
}
>>
    The static function [FluxNetPlugin::RegisterWithRegistrar] is declared in
    the header and defined outside the two source files, so the entry point
    takes it as a parameter. *)
Section CApi.

Variable RegisterWithRegistrar : PluginRegistrarWindows_ptr -> Prog unit.

Definition FluxNetPluginCApiRegisterWithRegistrar
    (registrar : FlutterDesktopPluginRegistrarRef) : Prog unit :=
  manager <- call GetInstance ;;
  typed <- call (GetRegistrar manager registrar) ;;
  RegisterWithRegistrar typed.

End CApi.

(** The constructor [FluxNetPlugin()] (flux_net_plugin.h, line 15): there is
    no member to initialise. *)
Definition FluxNetPlugin_new : FluxNetPlugin := Build_FluxNetPlugin_obj.

(** Modelled from the spec: the body of [FluxNetPlugin::RegisterWithRegistrar]
    (declared at flux_net_plugin.h line 13, defined outside the source files).
    Section 4.1: given the typed registrar, construct the plugin, binding its
    method channel. *)
Definition RegisterWithRegistrar (registrar : PluginRegistrarWindows_ptr)
  : Prog unit :=
  let plugin := FluxNetPlugin_new in
  call (BindMethodChannel registrar plugin).

(** ** Method calls delivered to the plugin

    [HandleMethodCall] (flux_net_plugin.h, lines 24-26) is a non-const member
    function declared without a body: in state-passing style it takes the
    instance, the call and the result sink and returns the instance it leaves
    behind.  The host delivers calls one after the other to the instance bound
    at registration. *)
Section Dispatch.

Variable HandleMethodCall :
  FluxNetPlugin -> MethodCall -> MethodResult_ptr -> Prog FluxNetPlugin.

Fixpoint dispatch_calls (this : FluxNetPlugin)
    (calls : list (MethodCall * MethodResult_ptr)) : Prog FluxNetPlugin :=
  match calls with
  | [] => Ret this
  | (method_call, result) :: rest =>
      this' <- HandleMethodCall this method_call result ;;
      dispatch_calls this' rest
  end.

End Dispatch.

(** ** A reference host

    A small host used to run the definitions on concrete inputs.  The manager
    is a singleton at a fixed address; it keeps one typed registrar per handle
    and hands out a fresh one the first time a handle is seen.  Bound channels
    and completed results are recorded in the order they happen. *)
Inductive Completion : Type :=
| Success
| Error (code message : string)
| NotImplemented.

Record HostState : Type :=
  Build_HostState {
    registrars : list (address * address);
    next_registrar : address;
    bound : list address;
    completed : list (address * Completion) }.

Definition initial_host : HostState :=
  Build_HostState [] 4096%N [] [].

Fixpoint find_registrar (table : list (address * address)) (handle : address)
  : option address :=
  match table with
  | [] => None
  | (k, v) :: rest => if N.eqb k handle then Some v else find_registrar rest handle
  end.

Definition reference_host : Handler HostState :=
  fun X c =>
    match c in HostCall X return HostState -> X * HostState with
    | GetInstance => fun s => (ManagerPtr 1%N, s)
    | GetRegistrar _ registrar => fun s =>
        match find_registrar (registrars s) (ref_addr registrar) with
        | Some a => (WindowsRegistrarPtr a, s)
        | None =>
            let a := next_registrar s in
            (WindowsRegistrarPtr a,
             Build_HostState ((ref_addr registrar, a) :: registrars s)
                             (N.succ a) (bound s) (completed s))
        end
    | BindMethodChannel registrar _ => fun s =>
        (tt, Build_HostState (registrars s) (next_registrar s)
                             (registrar_addr registrar :: bound s) (completed s))
    | MethodResult_Success result _ => fun s =>
        (tt, Build_HostState (registrars s) (next_registrar s) (bound s)
                             (completed s ++ [(result_addr result, Success)]))
    | MethodResult_Error result code message _ => fun s =>
        (tt, Build_HostState (registrars s) (next_registrar s) (bound s)
                             (completed s ++ [(result_addr result, Error code message)]))
    | MethodResult_NotImplemented result => fun s =>
        (tt, Build_HostState (registrars s) (next_registrar s) (bound s)
                             (completed s ++ [(result_addr result, NotImplemented)]))
    end.

(** A handler body that answers every call with not-implemented, used only to
    exercise [dispatch_calls]. *)
Definition always_not_implemented
    (this : FluxNetPlugin) (_ : MethodCall) (result : MethodResult_ptr)
  : Prog FluxNetPlugin :=
  call (MethodResult_NotImplemented result) ;;; Ret this.

(** The body that returns without touching the sink has the declared
    signature too. *)
Definition never_completes
    (this : FluxNetPlugin) (_ : MethodCall) (_ : MethodResult_ptr)
  : Prog FluxNetPlugin :=
  Ret this.

(** Whether a logged call completes the given result sink, and how many times
    a log completes it. *)
Definition completes (result : MethodResult_ptr) (e : Entry) : bool :=
  match entry_call e with
  | MethodResult_Success r _ => N.eqb (result_addr r) (result_addr result)
  | MethodResult_Error r _ _ _ => N.eqb (result_addr r) (result_addr result)
  | MethodResult_NotImplemented r => N.eqb (result_addr r) (result_addr result)
  | _ => false
  end.

Definition completions (result : MethodResult_ptr) (l : list Entry) : nat :=
  List.length (filter (completes result) l).

(** ** Repeated registration

    The host calls the entry point; nothing in the entry point depends on
    whether it ran before.  [call_n_times n p] is [p] run [n] times in a
    row. *)
Fixpoint call_n_times (n : nat) (p : Prog unit) : Prog unit :=
  match n with
  | O => Ret tt
  | Datatypes.S n' => p ;;; call_n_times n' p
  end.

(** Whether a logged call fetches the manager singleton, and whether it asks
    a manager for the typed registrar of the given handle. *)
Definition fetches_manager (e : Entry) : bool :=
  match entry_call e with
  | GetInstance => true
  | _ => false
  end.

Definition asks_registrar (registrar : FlutterDesktopPluginRegistrarRef)
    (e : Entry) : bool :=
  match entry_call e with
  | GetRegistrar _ r => N.eqb (ref_addr r) (ref_addr registrar)
  | _ => false
  end.

(** A state of the reference host in which the manager's table already sends
    the handles 7 and 8 to the same typed registrar. *)
Definition shared_registrar_state : HostState :=
  Build_HostState [(7%N, 4096%N); (8%N, 4096%N)] 4097%N [] [].

(** * Properties *)

(** ** Laws of programs *)

Lemma bind_ret_l (A B : Type) (a : A) (f : A -> Prog B) :
  bind (Ret a) f = f a.
Proof. reflexivity. Qed.

Lemma bind_call (X B : Type) (c : HostCall X) (f : X -> Prog B) :
  bind (call c) f = Vis c f.
Proof. reflexivity. Qed.

Lemma run_ret (S R : Type) (h : Handler S) (r : R) (s : S) :
  run h (Ret r) s = Build_Outcome r s [].
Proof. reflexivity. Qed.

Lemma run_vis (S R X : Type) (h : Handler S) (c : HostCall X)
      (k : X -> Prog R) (s : S) :
  run h (Vis c k) s =
  Build_Outcome (returned (run h (k (fst (h _ c s))) (snd (h _ c s))))
                (final (run h (k (fst (h _ c s))) (snd (h _ c s))))
                (Logged c (fst (h _ c s))
                   :: log (run h (k (fst (h _ c s))) (snd (h _ c s)))).
Proof. cbn. destruct (h X c s) as [x s1]. reflexivity. Qed.

(** Running a sequence runs its parts in order, threading the host state and
    concatenating the logs. *)
Lemma run_bind (S A B : Type) (h : Handler S) (p : Prog A) (f : A -> Prog B) :
  forall s : S,
    run h (bind p f) s =
    Build_Outcome (returned (run h (f (returned (run h p s))) (final (run h p s))))
                  (final (run h (f (returned (run h p s))) (final (run h p s))))
                  (log (run h p s)
                     ++ log (run h (f (returned (run h p s))) (final (run h p s)))).
Proof.
  induction p as [a | X c k IH]; intros s.
  - cbn. destruct (run h (f a) s); reflexivity.
  - cbn. destruct (h X c s) as [x s1]. cbn. rewrite IH. reflexivity.
Qed.

(** The run of the entry point, in terms of the host's two answers and of the
    run of the function it calls. *)
Lemma run_CApi (Register : PluginRegistrarWindows_ptr -> Prog unit)
      (S : Type) (h : Handler S) (s : S)
      (registrar : FlutterDesktopPluginRegistrarRef) :
  let m := h _ GetInstance s in
  let t := h _ (GetRegistrar (fst m) registrar) (snd m) in
  let o := run h (Register (fst t)) (snd t) in
  run h (FluxNetPluginCApiRegisterWithRegistrar Register registrar) s
  = Build_Outcome (returned o) (final o)
      (Logged GetInstance (fst m)
         :: Logged (GetRegistrar (fst m) registrar) (fst t)
         :: log o).
Proof.
  unfold FluxNetPluginCApiRegisterWithRegistrar.
  rewrite bind_call, run_vis. cbn beta.
  rewrite bind_call, run_vis. reflexivity.
Qed.

(** One run of the entry point fetches the manager and asks it for the
    registrar of the handle. *)
Lemma CApi_fetches_manager (Register : PluginRegistrarWindows_ptr -> Prog unit)
      (S : Type) (h : Handler S) (s : S)
      (registrar : FlutterDesktopPluginRegistrarRef) :
  1 <= List.length
         (filter fetches_manager
            (log (run h (FluxNetPluginCApiRegisterWithRegistrar Register registrar) s))).
Proof.
  rewrite run_CApi. cbn zeta. cbn [log filter fetches_manager entry_call List.length].
  lia.
Qed.

Lemma CApi_asks_registrar (Register : PluginRegistrarWindows_ptr -> Prog unit)
      (S : Type) (h : Handler S) (s : S)
      (registrar : FlutterDesktopPluginRegistrarRef) :
  1 <= List.length
         (filter (asks_registrar registrar)
            (log (run h (FluxNetPluginCApiRegisterWithRegistrar Register registrar) s))).
Proof.
  rewrite run_CApi. cbn zeta. cbn [log filter fetches_manager asks_registrar entry_call].
  rewrite N.eqb_refl. cbn [List.length]. lia.
Qed.

(** ** Runs on the reference host *)

Example register_handle_7 :
  run reference_host
      (FluxNetPluginCApiRegisterWithRegistrar RegisterWithRegistrar
         (RegistrarRef 7%N))
      initial_host
  = Build_Outcome tt
      (Build_HostState [(7%N, 4096%N)] 4097%N [4096%N] [])
      [ Logged GetInstance (ManagerPtr 1%N);
        Logged (GetRegistrar (ManagerPtr 1%N) (RegistrarRef 7%N))
               (WindowsRegistrarPtr 4096%N);
        Logged (BindMethodChannel (WindowsRegistrarPtr 4096%N) FluxNetPlugin_new)
               tt ].
Proof. reflexivity. Qed.

(** The null handle takes the same path as any other handle. *)
Example register_null_handle :
  run reference_host
      (FluxNetPluginCApiRegisterWithRegistrar RegisterWithRegistrar
         (RegistrarRef nullptr))
      initial_host
  = Build_Outcome tt
      (Build_HostState [(0%N, 4096%N)] 4097%N [4096%N] [])
      [ Logged GetInstance (ManagerPtr 1%N);
        Logged (GetRegistrar (ManagerPtr 1%N) (RegistrarRef nullptr))
               (WindowsRegistrarPtr 4096%N);
        Logged (BindMethodChannel (WindowsRegistrarPtr 4096%N) FluxNetPlugin_new)
               tt ].
Proof. reflexivity. Qed.

Example dispatch_two_calls (a b : EncodableValue) :
  completed
    (final
       (run reference_host
            (dispatch_calls always_not_implemented FluxNetPlugin_new
               [ (Build_MethodCall "isConnected" a, ResultPtr 10%N);
                 (Build_MethodCall "ping" b, ResultPtr 11%N) ])
            initial_host))
  = [(10%N, NotImplemented); (11%N, NotImplemented)].
Proof. reflexivity. Qed.

(** How often a sink is completed is decided by the body of
    [HandleMethodCall], which the declaration leaves open. *)
Example completions_depend_on_body (a : EncodableValue) :
  completions (ResultPtr 10%N)
    (log (run reference_host
              (always_not_implemented FluxNetPlugin_new
                 (Build_MethodCall "ping" a) (ResultPtr 10%N))
              initial_host)) = 1
  /\ completions (ResultPtr 10%N)
       (log (run reference_host
                 (never_completes FluxNetPlugin_new
                    (Build_MethodCall "ping" a) (ResultPtr 10%N))
                 initial_host)) = 0.
Proof. split; reflexivity. Qed.

(** ** The registration entry point *)

(** C1: for every registrar handle, whatever the host, the entry point asks
    the host's [PluginRegistrarManager] singleton for the typed Windows
    registrar of that handle and passes the registrar the host answered to
    [FluxNetPlugin::RegisterWithRegistrar], which constructs the plugin and
    binds its method channel on that registrar: the run makes exactly these
    three host calls, in this order, and ends in the state the binding
    leaves. *)
Theorem CApi_registers_on_typed_registrar :
  forall (S : Type) (h : Handler S) (s : S)
         (registrar : FlutterDesktopPluginRegistrarRef),
    let '(manager, s1) := h _ GetInstance s in
    let '(typed, s2) := h _ (GetRegistrar manager registrar) s1 in
    let '(bound_ok, s3) := h _ (BindMethodChannel typed FluxNetPlugin_new) s2 in
    run h (FluxNetPluginCApiRegisterWithRegistrar RegisterWithRegistrar registrar) s
    = Build_Outcome tt s3
        [ Logged GetInstance manager;
          Logged (GetRegistrar manager registrar) typed;
          Logged (BindMethodChannel typed FluxNetPlugin_new) bound_ok ].
Proof.
  intros S h s registrar.
  destruct (h _ GetInstance s) as [manager s1] eqn:Hmanager.
  destruct (h _ (GetRegistrar manager registrar) s1) as [typed s2] eqn:Htyped.
  destruct (h _ (BindMethodChannel typed FluxNetPlugin_new) s2)
    as [bound_ok s3] eqn:Hbound.
  unfold FluxNetPluginCApiRegisterWithRegistrar, RegisterWithRegistrar.
  cbn. rewrite Hmanager. cbn. rewrite Htyped. cbn. rewrite Hbound.
  destruct bound_ok. reflexivity.
Qed.

(** C3: the entry point returns nothing ([tt]) on every handle and has no
    branch on it: whatever the host and whatever
    [FluxNetPlugin::RegisterWithRegistrar] does, the handle it was given is
    the one handed to the manager's [GetRegistrar], and
    [RegisterWithRegistrar] always runs, to its end, on the registrar the
    host answered.  The null handle is forwarded like any other. *)
Theorem CApi_forwards_handle_unconditionally :
  forall (Register : PluginRegistrarWindows_ptr -> Prog unit)
         (S : Type) (h : Handler S) (s : S),
    (forall registrar : FlutterDesktopPluginRegistrarRef,
        let '(manager, s1) := h _ GetInstance s in
        let '(typed, s2) := h _ (GetRegistrar manager registrar) s1 in
        let o := run h (Register typed) s2 in
        run h (FluxNetPluginCApiRegisterWithRegistrar Register registrar) s
        = Build_Outcome tt (final o)
            (Logged GetInstance manager
               :: Logged (GetRegistrar manager registrar) typed
               :: log o))
    /\ (exists manager typed,
           In (Logged (GetRegistrar manager (RegistrarRef nullptr)) typed)
              (log (run h (FluxNetPluginCApiRegisterWithRegistrar
                             Register (RegistrarRef nullptr)) s))).
Proof.
  intros Register S h s. split.
  - intros registrar. pose proof (run_CApi Register h s registrar) as Hrun.
    cbn zeta in Hrun.
    destruct (h _ GetInstance s) as [manager s1]. cbn [fst snd] in Hrun.
    destruct (h _ (GetRegistrar manager registrar) s1) as [typed s2].
    cbn [fst snd] in Hrun. rewrite Hrun.
    destruct (returned (run h (Register typed) s2)). reflexivity.
  - rewrite run_CApi. cbn [log]. eexists _, _. right. left. reflexivity.
Qed.

(** ** Further properties of the registration entry point *)

(** X1: the handle is used for the registrar lookup and for nothing else.
    If the manager answers two handles alike (same typed registrar, same
    state afterwards), the two runs of the entry point differ only in the
    logged lookup: same result, same final state, same calls before and
    after it. *)
Theorem CApi_handle_only_selects_registrar :
  forall (Register : PluginRegistrarWindows_ptr -> Prog unit)
         (S : Type) (h : Handler S) (s : S)
         (r1 r2 : FlutterDesktopPluginRegistrarRef),
    h _ (GetRegistrar (fst (h _ GetInstance s)) r1) (snd (h _ GetInstance s))
    = h _ (GetRegistrar (fst (h _ GetInstance s)) r2) (snd (h _ GetInstance s)) ->
    returned (run h (FluxNetPluginCApiRegisterWithRegistrar Register r1) s)
    = returned (run h (FluxNetPluginCApiRegisterWithRegistrar Register r2) s)
    /\ final (run h (FluxNetPluginCApiRegisterWithRegistrar Register r1) s)
       = final (run h (FluxNetPluginCApiRegisterWithRegistrar Register r2) s)
    /\ firstn 1 (log (run h (FluxNetPluginCApiRegisterWithRegistrar Register r1) s))
       = firstn 1 (log (run h (FluxNetPluginCApiRegisterWithRegistrar Register r2) s))
    /\ skipn 2 (log (run h (FluxNetPluginCApiRegisterWithRegistrar Register r1) s))
       = skipn 2 (log (run h (FluxNetPluginCApiRegisterWithRegistrar Register r2) s)).
Proof.
  intros Register S h s r1 r2 Hsame.
  rewrite !run_CApi. cbn zeta. cbn [returned final log firstn skipn].
  rewrite Hsame. repeat split.
Qed.

(** X2: the entry point has no once-only guard and caches nothing between
    calls.  Called [n] times in a row with the same handle, on any host and
    whatever [RegisterWithRegistrar] does, it fetches the manager singleton
    at least [n] times and asks for the registrar of that handle at least
    [n] times. *)
Theorem CApi_repeated_calls_ask_again :
  forall (Register : PluginRegistrarWindows_ptr -> Prog unit)
         (S : Type) (h : Handler S)
         (registrar : FlutterDesktopPluginRegistrarRef) (n : nat) (s : S),
    n <= List.length
           (filter fetches_manager
              (log (run h (call_n_times n
                             (FluxNetPluginCApiRegisterWithRegistrar Register registrar))
                        s)))
    /\ n <= List.length
              (filter (asks_registrar registrar)
                 (log (run h (call_n_times n
                                (FluxNetPluginCApiRegisterWithRegistrar Register registrar))
                           s))).
Proof.
  intros Register S h registrar n.
  induction n as [| n IH]; intros s.
  - split; lia.
  - cbn [call_n_times]. rewrite run_bind. cbn [log].
    rewrite !filter_app, !length_app.
    destruct (IH (final (run h (FluxNetPluginCApiRegisterWithRegistrar
                                  Register registrar) s))) as [IHm IHr].
    pose proof (CApi_fetches_manager Register h s registrar).
    pose proof (CApi_asks_registrar Register h s registrar).
    split; lia.
Qed.

End FluxNet.

(** The handles 7 and 8 share a typed registrar in [shared_registrar_state]:
    the reference host answers both lookups alike, and the two registrations
    end alike. *)
Lemma CApi_handle_only_selects_registrar_witness :
  let host := reference_host (EncodableValue := unit) in
  let register_7 :=
    run host (FluxNetPluginCApiRegisterWithRegistrar RegisterWithRegistrar
                (RegistrarRef 7%N)) shared_registrar_state in
  let register_8 :=
    run host (FluxNetPluginCApiRegisterWithRegistrar RegisterWithRegistrar
                (RegistrarRef 8%N)) shared_registrar_state in
  host _ (GetRegistrar (ManagerPtr 1%N) (RegistrarRef 7%N)) shared_registrar_state
  = host _ (GetRegistrar (ManagerPtr 1%N) (RegistrarRef 8%N)) shared_registrar_state
  /\ returned register_7 = returned register_8
  /\ final register_7 = final register_8
  /\ firstn 1 (log register_7) = firstn 1 (log register_8)
  /\ skipn 2 (log register_7) = skipn 2 (log register_8).
Proof.
  intros host register_7 register_8.
  split; [reflexivity |].
  apply (CApi_handle_only_selects_registrar
           RegisterWithRegistrar host
           shared_registrar_state (RegistrarRef 7%N) (RegistrarRef 8%N)).
  reflexivity.
Defined.
